(** * MIDI-to-CV converter (ATtiny85): shallow embedding of MIDI-CV-ATtiny85.ino

    The sketch keeps all of its state in global variables. It is modelled here
    as two records: the voice state ([Voice]: note bookkeeping, the two PWM
    compare registers OCR1A/OCR1B and the GATE/TRIGGER pins) and the running
    status state of the MIDI parser ([Decoder]).  The compile-time options
    (#define MIDI_CHAN, AMPLD_CV_MSG, MULTI_TRIG) become a [Config] record.
    Bytes and words are [Z]; a [uint8_t] store truncates modulo 256, a
    [uint32_t] subtraction wraps modulo 2^32.  The time sources [micros()] and
    [millis()] are sampled once per call into a [Clock]. *)

From Stdlib Require Import ZArith List Bool Ascii Lia.
Import ListNotations.
Open Scope Z_scope.

(** ** Configuration options *)

Record Config := mkConfig {
  MIDI_CHAN : Z;          (* 1..16 *)
  AMPLD_CV_MSG : ascii;   (* 'V', 'M' or 'B' *)
  MULTI_TRIG : bool }.

(** The configuration as the source ships it. *)
Definition cfg_src : Config := mkConfig 12 "V"%char false.

Definition MIDILONOTE : Z := 36.
Definition MIDIHINOTE : Z := 96.
Definition TRIGPULSE : Z := 1000.

(** Unsigned wrap-around of the C integer types. *)
Definition u8 (x : Z) : Z := x mod 256.
Definition u32 (x : Z) : Z := x mod 2 ^ 32.

(** ** Time sources *)

Record Clock := mkClock { micros : Z; millis : Z }.

(** ** Voice state (globals notePlaying .. gateDelayBegin and the outputs) *)

Record Voice := mkVoice {
  notePlaying : Z;
  notePending : Z;
  triggerPulseBegin : Z;
  gateDelayBegin : Z;
  OCR1A : Z;            (* pitch CV duty, PB1 *)
  OCR1B : Z;            (* amplitude CV duty, PB4 *)
  GATE_pin : bool;      (* PB2 *)
  TRIGGER_pin : bool }. (* PB0 *)

Definition set_notePlaying (x : Z) (v : Voice) : Voice :=
  mkVoice (u8 x) (notePending v) (triggerPulseBegin v) (gateDelayBegin v)
          (OCR1A v) (OCR1B v) (GATE_pin v) (TRIGGER_pin v).
Definition set_notePending (x : Z) (v : Voice) : Voice :=
  mkVoice (notePlaying v) (u8 x) (triggerPulseBegin v) (gateDelayBegin v)
          (OCR1A v) (OCR1B v) (GATE_pin v) (TRIGGER_pin v).
Definition set_triggerPulseBegin (x : Z) (v : Voice) : Voice :=
  mkVoice (notePlaying v) (notePending v) x (gateDelayBegin v)
          (OCR1A v) (OCR1B v) (GATE_pin v) (TRIGGER_pin v).
Definition set_gateDelayBegin (x : Z) (v : Voice) : Voice :=
  mkVoice (notePlaying v) (notePending v) (triggerPulseBegin v) x
          (OCR1A v) (OCR1B v) (GATE_pin v) (TRIGGER_pin v).
Definition digitalWrite_GATE (b : bool) (v : Voice) : Voice :=
  mkVoice (notePlaying v) (notePending v) (triggerPulseBegin v) (gateDelayBegin v)
          (OCR1A v) (OCR1B v) b (TRIGGER_pin v).
Definition digitalWrite_TRIGGER (b : bool) (v : Voice) : Voice :=
  mkVoice (notePlaying v) (notePending v) (triggerPulseBegin v) (gateDelayBegin v)
          (OCR1A v) (OCR1B v) (GATE_pin v) b.

(** [#define SetDutyPWM1A(d) (OCR1A = d)]: an int stored in an 8-bit register. *)
Definition SetDutyPWM1A (d : Z) (v : Voice) : Voice :=
  mkVoice (notePlaying v) (notePending v) (triggerPulseBegin v) (gateDelayBegin v)
          (u8 d) (OCR1B v) (GATE_pin v) (TRIGGER_pin v).
Definition SetDutyPWM1B (d : Z) (v : Voice) : Voice :=
  mkVoice (notePlaying v) (notePending v) (triggerPulseBegin v) (gateDelayBegin v)
          (OCR1A v) (u8 d) (GATE_pin v) (TRIGGER_pin v).

Definition gateOn (v : Voice) : Voice := digitalWrite_GATE true v.
Definition gateOff (v : Voice) : Voice := digitalWrite_GATE false v.

(** [#define triggerOn() { digitalWrite(TRIGGER, HIGH); triggerPulseBegin = micros(); }] *)
Definition triggerOn (t : Clock) (v : Voice) : Voice :=
  set_triggerPulseBegin (micros t) (digitalWrite_TRIGGER true v).

(** The two range checks at the head of midiNoteOn and midiNoteOff:
    [if (midi_note < MIDILONOTE) midi_note = MIDILONOTE;
     if (midi_note > MIDIHINOTE) midi_note = MIDIHINOTE;] *)
Definition clampNote (midi_note : Z) : Z :=
  let midi_note := if midi_note <? MIDILONOTE then MIDILONOTE else midi_note in
  if midi_note >? MIDIHINOTE then MIDIHINOTE else midi_note.

(** ** midiNoteOn *)
Definition midiNoteOn (c : Config) (t : Clock) (midi_note velocity : Z) (v : Voice)
  : Voice :=
  let midi_note := clampNote midi_note in
  let v :=
    if MULTI_TRIG c then
      if negb (notePlaying v =? 0) then
        (* GATE is already ON: terminate current note, defer Note-On *)
        let v := gateOff v in
        let v := set_notePlaying 0 v in
        let v := set_notePending midi_note v in
        set_gateDelayBegin (millis t) v
      else
        (* GATE is OFF: initiate new note *)
        let v := SetDutyPWM1A ((midi_note - MIDILONOTE) * 4) v in
        let v := gateOn v in
        let v := triggerOn t v in
        set_notePlaying midi_note v
    else
      (* Multi-trigger mode disabled: legato pitch change *)
      let v := SetDutyPWM1A ((midi_note - MIDILONOTE) * 4) v in
      let v := if notePlaying v =? 0 then triggerOn t (gateOn v) else v in
      set_notePlaying midi_note v
  in
  if Ascii.eqb (AMPLD_CV_MSG c) "V"%char
  then SetDutyPWM1B ((240 * velocity) / 128) v
  else v.

(** ** midiNoteOff (midi_level is unused by the source) *)
Definition midiNoteOff (midi_note midi_level : Z) (v : Voice) : Voice :=
  let midi_note := clampNote midi_note in
  if midi_note =? notePlaying v
  then gateOff (set_notePlaying 0 v)
  else v.

(** ** The time-driven part of loop() (everything after the byte dispatch) *)

(** [if ((micros() - triggerPulseBegin) >= TRIGPULSE) digitalWrite(TRIGGER, LOW);] *)
Definition endTriggerPulse (t : Clock) (v : Voice) : Voice :=
  if u32 (micros t - triggerPulseBegin v) >=? TRIGPULSE
  then digitalWrite_TRIGGER false v
  else v.

(** [if (notePending && (millis() - gateDelayBegin) >= 5) { ... }] *)
Definition startPendingNote (t : Clock) (v : Voice) : Voice :=
  if negb (notePending v =? 0) && (u32 (millis t - gateDelayBegin v) >=? 5) then
    let v := SetDutyPWM1A ((notePending v - MIDILONOTE) * 4) v in
    let v := gateOn v in
    let v := triggerOn t v in
    let v := set_notePlaying (notePending v) v in
    set_notePending 0 v
  else v.

Definition tick (c : Config) (t : Clock) (v : Voice) : Voice :=
  let v := endTriggerPulse t v in
  if negb (MULTI_TRIG c) then v   (* Multi-trigger mode disabled *)
  else startPendingNote t v.

(** ** MidiProcess: running status parser *)

Record Decoder := mkDecoder {
  midiStatusByte : Z;
  midiDataByte1 : Z;
  midiDataByte2 : Z }.

(** The parser is written over the handlers it calls, so that it can be run
    both against the voice controller and against an event recorder. *)
Section MidiProcess.
Context {St : Type}.
Variable c : Config.
Variable onNoteOff : Z -> Z -> St -> St.
Variable onNoteOn : Z -> Z -> St -> St.
Variable onDutyPWM1B : Z -> St -> St.

Definition MidiProcess (midibyte : Z) (m : Decoder * St) : Decoder * St :=
  let '(d, s) := m in
  let st := midiStatusByte d in
  let d1 := midiDataByte1 d in
  if (0x80 <=? midibyte) && (midibyte <=? 0xEF) then
    (* voice-channel message: start handling running status *)
    (mkDecoder midibyte 0xFF 0xFF, s)
  else if (0xF0 <=? midibyte) && (midibyte <=? 0xF7) then
    (* system common: reset running status *)
    (mkDecoder 0 d1 (midiDataByte2 d), s)
  else if (0xF8 <=? midibyte) && (midibyte <=? 0xFF) then
    (* system real-time: ignored *)
    (d, s)
  else if st =? 0 then (d, s)   (* no command received yet *)
  else if st =? Z.lor 0x80 (MIDI_CHAN c - 1) then            (* Note OFF *)
    if d1 =? 0xFF then (mkDecoder st midibyte (midiDataByte2 d), s)
    else
      (* midiDataByte2 = midibyte; midiNoteOff(...); both reset to 0xFF *)
      (mkDecoder st 0xFF 0xFF, onNoteOff d1 midibyte s)
  else if st =? Z.lor 0x90 (MIDI_CHAN c - 1) then            (* Note ON *)
    if d1 =? 0xFF then (mkDecoder st midibyte (midiDataByte2 d), s)
    else
      let s := if midibyte =? 0 then onNoteOff d1 midibyte s
               else onNoteOn d1 midibyte s in
      (mkDecoder st 0xFF 0xFF, s)
  else if st =? Z.lor 0xB0 (MIDI_CHAN c - 1) then            (* Control Change *)
    if d1 =? 0xFF then (mkDecoder st midibyte (midiDataByte2 d), s)
    else
      let s := if (d1 =? 1) && Ascii.eqb (AMPLD_CV_MSG c) "M"%char
               then onDutyPWM1B ((240 * midibyte) / 128) s else s in
      let s := if (d1 =? 2) && Ascii.eqb (AMPLD_CV_MSG c) "B"%char
               then onDutyPWM1B ((240 * midibyte) / 128) s else s in
      (mkDecoder st 0xFF 0xFF, s)
  else (d, s).   (* command we don't process or not on our channel *)

Definition MidiProcessList (bs : list Z) (m : Decoder * St) : Decoder * St :=
  fold_left (fun m b => MidiProcess b m) bs m.

End MidiProcess.

(** ** The whole program *)

Definition Machine : Type := (Decoder * Voice)%type.

Definition processByte (c : Config) (t : Clock) (b : Z) (m : Machine) : Machine :=
  MidiProcess c midiNoteOff (midiNoteOn c t) SetDutyPWM1B b m.

Definition feed (c : Config) (t : Clock) (bs : list Z) (m : Machine) : Machine :=
  MidiProcessList c midiNoteOff (midiNoteOn c t) SetDutyPWM1B bs m.

(** One pass of loop(): at most one received byte, then the timed checks. *)
Definition loop (c : Config) (inp : option Z) (t : Clock) (m : Machine) : Machine :=
  let m := match inp with Some b => processByte c t b m | None => m end in
  (fst m, tick c t (snd m)).

Definition run (c : Config) (steps : list (option Z * Clock)) (m : Machine) : Machine :=
  fold_left (fun m '(inp, t) => loop c inp t m) steps m.

(** Power-on state: zero-initialised globals, then setup(). *)
Definition init : Machine :=
  (mkDecoder 0 0 0, mkVoice 0 0 0 0 96 180 false false).

(** ** Decoded events: the parser run against a recorder *)

Inductive Event :=
| EvNoteOff (note level : Z)
| EvNoteOn (note velocity : Z)
| EvDutyPWM1B (duty : Z).

Definition recNoteOff (n l : Z) (es : list Event) := es ++ [EvNoteOff n l].
Definition recNoteOn (n vel : Z) (es : list Event) := es ++ [EvNoteOn n vel].
Definition recDuty (d : Z) (es : list Event) := es ++ [EvDutyPWM1B d].

Definition decode (c : Config) (bs : list Z) (m : Decoder * list Event)
  : Decoder * list Event :=
  MidiProcessList c recNoteOff recNoteOn recDuty bs m.

(** The multi-trigger configuration (MULTI_TRIG = 1), other options as shipped. *)
Definition cfg_multi : Config := mkConfig 12 "V"%char true.

(** ** Concrete scenarios *)

Definition v_playing60 : Voice := mkVoice 60 0 0 0 96 180 true false.

Definition v_deferred62 : Voice := midiNoteOn cfg_multi (mkClock 1000 1) 62 100 v_playing60.

Definition t_a : Clock := mkClock 1000 1.
Definition t_b : Clock := mkClock 2000 2.
Definition t_c : Clock := mkClock 3000 3.
Definition t_d : Clock := mkClock 8000 8.

(** Note On 60, then (running status) Note On 62 while 60 plays, then Note On
    64 one millisecond later, before the 5 ms gate-off interval has expired;
    one byte per pass of loop(). *)
Definition overlap_steps : list (option Z * Clock) :=
  [(Some 0x9B, t_a); (Some 60, t_a); (Some 100, t_a);
   (Some 62, t_b); (Some 110, t_b);
   (Some 64, t_c); (Some 120, t_c)].

(** Source configuration, Note On 100 (above the range) from power-on. *)
Definition v_played100 : Voice := snd (feed cfg_src t_a [0x9B; 100; 64] init).

(** A pulse started 500 us before the 32-bit microsecond counter wraps, checked
    600 us after the wrap. *)
Definition v_pulse_at_wrap : Voice := mkVoice 60 0 (2 ^ 32 - 500) 0 96 180 true true.

(** ** Reachable states, parser bytes and event replay *)

(** A byte handed to MidiProcess is a uint8_t. *)
Definition byte_ok (inp : option Z) : Prop :=
  match inp with Some b => 0 <= b <= 255 | None => True end.

(** States reachable from power-on by passes of loop(). *)
Inductive reachable (c : Config) : Machine -> Prop :=
| reach_init : reachable c init
| reach_loop (m : Machine) (inp : option Z) (t : Clock) :
    reachable c m -> byte_ok inp -> reachable c (loop c inp t m).

Definition note_ok (x : Z) : Prop := x = 0 \/ MIDILONOTE <= x <= MIDIHINOTE.

(** What every reachable voice state satisfies. *)
Record VoiceInv (c : Config) (v : Voice) : Prop := mkVoiceInv {
  inv_gate : GATE_pin v = negb (notePlaying v =? 0);
  inv_playing : note_ok (notePlaying v);
  inv_pending : note_ok (notePending v);
  inv_ocr1a : 0 <= OCR1A v <= 240;
  inv_ocr1b : 0 <= OCR1B v <= 238;
  inv_legato : MULTI_TRIG c = false -> notePending v = 0 }.

Definition data_byte (b : Z) : Prop := 0 <= b < 128.

(** The status bytes whose data bytes MidiProcess hands to a handler. *)
Definition serviced (c : Config) : list Z :=
  [Z.lor 0x80 (MIDI_CHAN c - 1); Z.lor 0x90 (MIDI_CHAN c - 1); Z.lor 0xB0 (MIDI_CHAN c - 1)].



(** A configuration whose CC 2 (breath) drives the amplitude output. *)
Definition cfg_breath : Config := mkConfig 12 "B"%char false.

(** ** Proof support *)

Lemma Zeqb_true (a b : Z) : a = b -> (a =? b) = true.
Proof. apply Z.eqb_eq. Qed.
Lemma Zeqb_false (a b : Z) : a <> b -> (a =? b) = false.
Proof. apply Z.eqb_neq. Qed.
Lemma Zleb_true (a b : Z) : a <= b -> (a <=? b) = true.
Proof. apply Z.leb_le. Qed.
Lemma Zleb_false (a b : Z) : b < a -> (a <=? b) = false.
Proof. apply Z.leb_gt. Qed.

(** Settle every integer test of the goal that [lia] can decide. *)
Ltac zbool :=
  repeat match goal with
  | |- context [?a =? ?b] =>
      first [ rewrite (Zeqb_true a b) by lia | rewrite (Zeqb_false a b) by lia ]
  | |- context [?a <=? ?b] =>
      first [ rewrite (Zleb_true a b) by lia | rewrite (Zleb_false a b) by lia ]
  end.

Ltac rewrite_lor :=
  repeat match goal with
  | H : Z.lor ?a ?b = _ |- context [Z.lor ?a ?b] => rewrite H
  end.

Ltac step_parser :=
  repeat (cbn [MidiProcessList fold_left MidiProcess fst snd andb negb
               midiStatusByte midiDataByte1 midiDataByte2]; rewrite_lor; zbool).

(** The status bytes of the serviced channel, for a channel 1..16. *)
Lemma status_bytes (ch : Z) :
  1 <= ch <= 16 ->
  Z.lor 0x80 (ch - 1) = 0x80 + (ch - 1) /\
  Z.lor 0x90 (ch - 1) = 0x90 + (ch - 1) /\
  Z.lor 0xB0 (ch - 1) = 0xB0 + (ch - 1).
Proof.
  intros H.
  assert (ch = 1 \/ ch = 2 \/ ch = 3 \/ ch = 4 \/ ch = 5 \/ ch = 6 \/ ch = 7 \/ ch = 8 \/
          ch = 9 \/ ch = 10 \/ ch = 11 \/ ch = 12 \/ ch = 13 \/ ch = 14 \/ ch = 15 \/ ch = 16)
    as Hc by lia.
  repeat (destruct Hc as [-> | Hc]; [repeat split; reflexivity |]); subst;
    repeat split; reflexivity.
Qed.

Lemma clampNote_spec (n : Z) : clampNote n = Z.min MIDIHINOTE (Z.max MIDILONOTE n).
Proof.
  unfold clampNote, MIDILONOTE, MIDIHINOTE; rewrite Z.gtb_ltb.
  destruct (Z.ltb_spec n 36); [ | destruct (Z.ltb_spec 96 n)]; cbn; lia.
Qed.

Lemma clampNote_range (n : Z) : MIDILONOTE <= clampNote n <= MIDIHINOTE.
Proof. rewrite clampNote_spec; unfold MIDILONOTE, MIDIHINOTE; lia. Qed.

Lemma u8_id (x : Z) : 0 <= x <= 255 -> u8 x = x.
Proof. intros; unfold u8; apply Z.mod_small; lia. Qed.

(** A complete Note Off message on the serviced channel. *)
Lemma msg_note_off {St : Type} (c : Config) offH onH (dH : Z -> St -> St)
      (d : Decoder) (s : St) (n l : Z) :
  1 <= MIDI_CHAN c <= 16 -> 0 <= n < 128 -> 0 <= l < 128 ->
  MidiProcessList c offH onH dH [Z.lor 0x80 (MIDI_CHAN c - 1); n; l] (d, s)
  = (mkDecoder (Z.lor 0x80 (MIDI_CHAN c - 1)) 0xFF 0xFF, offH n l s).
Proof.
  intros Hc Hn Hl.
  destruct (status_bytes _ Hc) as (E1 & E2 & E3).
  step_parser. reflexivity.
Qed.

(** A complete Note On message on the serviced channel. *)
Lemma msg_note_on {St : Type} (c : Config) offH onH (dH : Z -> St -> St)
      (d : Decoder) (s : St) (n vel : Z) :
  1 <= MIDI_CHAN c <= 16 -> 0 <= n < 128 -> 0 <= vel < 128 ->
  MidiProcessList c offH onH dH [Z.lor 0x90 (MIDI_CHAN c - 1); n; vel] (d, s)
  = (mkDecoder (Z.lor 0x90 (MIDI_CHAN c - 1)) 0xFF 0xFF,
     if vel =? 0 then offH n vel s else onH n vel s).
Proof.
  intros Hc Hn Hv.
  destruct (status_bytes _ Hc) as (E1 & E2 & E3).
  step_parser. reflexivity.
Qed.

(** Discharge the hypotheses of a theorem at a concrete input. *)
Ltac concrete := repeat split; vm_compute; try reflexivity; try congruence.

(** ** Pitch output of the top note *)

(** C1: with multi-trigger disabled, every Note On whose number is at or above
    the top of the range (96) is clamped to 96 and writes the pitch level
    (96 - 36) * 4 = 240 into OCR1A, one above the largest duty 239 of the
    PWM period of 240 clocks. *)
Theorem C1_top_note_duty_240 (c : Config) (t : Clock) (n vel : Z) (v : Voice) :
  MULTI_TRIG c = false -> MIDIHINOTE <= n ->
  OCR1A (midiNoteOn c t n vel v) = 240 /\ OCR1A (midiNoteOn c t n vel v) > 239.
Proof.
  intros Hm Hn.
  assert (Hcl : clampNote n = 96)
    by (rewrite clampNote_spec; unfold MIDILONOTE, MIDIHINOTE in *; lia).
  unfold midiNoteOn; rewrite Hm, Hcl.
  cbn; destruct (Ascii.eqb (AMPLD_CV_MSG c) "V"%char), (notePlaying v =? 0);
    cbn; split; first [reflexivity | lia].
Qed.

Lemma C1_top_note_duty_240_witness :
  MULTI_TRIG cfg_src = false /\ MIDIHINOTE <= 96 /\
  OCR1A (midiNoteOn cfg_src (mkClock 0 0) 96 100 (snd init)) = 240 /\
  OCR1A (midiNoteOn cfg_src (mkClock 0 0) 96 100 (snd init)) > 239.
Proof.
  refine (conj eq_refl (conj _ _)); [concrete |].
  apply C1_top_note_duty_240; concrete.
Defined.

(** ** Multi-trigger retrigger *)

Lemma tick_promotes_pending (c : Config) (t : Clock) (w : Voice) :
  MULTI_TRIG c = true -> notePending w <> 0 -> 0 <= notePending w <= 255 ->
  u32 (millis t - gateDelayBegin w) >= 5 ->
  OCR1A (tick c t w) = u8 ((notePending w - MIDILONOTE) * 4) /\
  GATE_pin (tick c t w) = true /\
  TRIGGER_pin (tick c t w) = true /\
  triggerPulseBegin (tick c t w) = micros t /\
  notePlaying (tick c t w) = notePending w /\
  notePending (tick c t w) = 0.
Proof.
  intros Hm Hw Hwr Hd.
  unfold tick, startPendingNote, endTriggerPulse; rewrite Hm.
  assert (Hd' : (u32 (millis t - gateDelayBegin w) >=? 5) = true)
    by (apply Z.geb_le; lia).
  destruct (u32 (micros t - triggerPulseBegin w) >=? TRIGPULSE); cbn;
    rewrite (Zeqb_false _ _ Hw), Hd'; cbn;
    repeat split; try reflexivity; apply u8_id; lia.
Qed.

(** C2: in multi-trigger mode a Note On while a note is playing turns the gate
    off, clears notePlaying, stores the clamped note as notePending and records
    millis() as gateDelayBegin; a tick with notePending set and at least 5 ms
    (uint32 difference) after gateDelayBegin writes the pending note's pitch,
    turns the gate on, starts a trigger pulse, promotes notePending to
    notePlaying and clears notePending. *)
Theorem C2_multi_trigger_retrigger (c : Config) (t t' : Clock) (n vel : Z) (v w : Voice) :
  MULTI_TRIG c = true -> notePlaying v <> 0 ->
  notePending w <> 0 -> 0 <= notePending w <= 255 ->
  u32 (millis t' - gateDelayBegin w) >= 5 ->
  (GATE_pin (midiNoteOn c t n vel v) = false /\
   notePlaying (midiNoteOn c t n vel v) = 0 /\
   notePending (midiNoteOn c t n vel v) = clampNote n /\
   gateDelayBegin (midiNoteOn c t n vel v) = millis t) /\
  (OCR1A (tick c t' w) = u8 ((notePending w - MIDILONOTE) * 4) /\
   GATE_pin (tick c t' w) = true /\
   TRIGGER_pin (tick c t' w) = true /\
   triggerPulseBegin (tick c t' w) = micros t' /\
   notePlaying (tick c t' w) = notePending w /\
   notePending (tick c t' w) = 0).
Proof.
  intros Hm Hp Hw Hwr Hd.
  pose proof (clampNote_range n) as Hr; unfold MIDILONOTE, MIDIHINOTE in Hr.
  split.
  - unfold midiNoteOn; rewrite Hm.
    rewrite (Zeqb_false _ _ Hp).
    destruct (Ascii.eqb (AMPLD_CV_MSG c) "V"%char); cbn;
      repeat split; try reflexivity; apply u8_id; lia.
  - apply tick_promotes_pending; assumption.
Qed.

Lemma C2_multi_trigger_retrigger_witness :
  (GATE_pin (midiNoteOn cfg_multi (mkClock 1000 1) 62 100 v_playing60) = false /\
   notePlaying (midiNoteOn cfg_multi (mkClock 1000 1) 62 100 v_playing60) = 0 /\
   notePending (midiNoteOn cfg_multi (mkClock 1000 1) 62 100 v_playing60) = clampNote 62 /\
   gateDelayBegin (midiNoteOn cfg_multi (mkClock 1000 1) 62 100 v_playing60) = millis (mkClock 1000 1)) /\
  (OCR1A (tick cfg_multi (mkClock 6000 6) v_deferred62)
     = u8 ((notePending v_deferred62 - MIDILONOTE) * 4) /\
   GATE_pin (tick cfg_multi (mkClock 6000 6) v_deferred62) = true /\
   TRIGGER_pin (tick cfg_multi (mkClock 6000 6) v_deferred62) = true /\
   triggerPulseBegin (tick cfg_multi (mkClock 6000 6) v_deferred62) = micros (mkClock 6000 6) /\
   notePlaying (tick cfg_multi (mkClock 6000 6) v_deferred62) = notePending v_deferred62 /\
   notePending (tick cfg_multi (mkClock 6000 6) v_deferred62) = 0).
Proof.
  apply C2_multi_trigger_retrigger; concrete.
Defined.

(** ** A Note On during the multi-trigger gate-off interval *)

(** C3: in multi-trigger mode the reachable state after [overlap_steps] has
    notePlaying = 64 and notePending = 62 at the same time; the next pass of
    loop() after the 5 ms delay replaces the newest note 64 by the stale
    pending note 62 (pitch duty 104). *)
Theorem C3_pending_and_playing_both_set :
  notePlaying (snd (run cfg_multi overlap_steps init)) = 64 /\
  notePending (snd (run cfg_multi overlap_steps init)) = 62 /\
  GATE_pin (snd (run cfg_multi overlap_steps init)) = true /\
  notePlaying (snd (loop cfg_multi None t_d (run cfg_multi overlap_steps init))) = 62 /\
  OCR1A (snd (loop cfg_multi None t_d (run cfg_multi overlap_steps init))) = 104.
Proof. vm_compute. repeat split. Qed.

(** ** Note Off *)

(** C4 (counterexample): note 100 is not the playing note 96, yet a Note Off
    for 100 turns the gate off and clears notePlaying, because midiNoteOff
    clamps 100 to 96 before the comparison. *)
Lemma C4_out_of_range_release :
  notePlaying v_played100 = 96 /\ GATE_pin v_played100 = true /\
  100 <> notePlaying v_played100 /\
  GATE_pin (midiNoteOff 100 0 v_played100) = false /\
  notePlaying (midiNoteOff 100 0 v_played100) = 0.
Proof. vm_compute. repeat split; congruence. Qed.

(** C4 (amended): midiNoteOff compares the clamped note with notePlaying. It is
    a no-op exactly when they differ; when they are equal it clears notePlaying
    and turns the gate off; it never touches anything else. *)
Theorem C4_note_off_clamped (n l : Z) (v : Voice) :
  (midiNoteOff n l v = v <-> clampNote n <> notePlaying v) /\
  GATE_pin (midiNoteOff n l v)
    = (if clampNote n =? notePlaying v then false else GATE_pin v) /\
  notePlaying (midiNoteOff n l v)
    = (if clampNote n =? notePlaying v then 0 else notePlaying v) /\
  notePending (midiNoteOff n l v) = notePending v /\
  TRIGGER_pin (midiNoteOff n l v) = TRIGGER_pin v /\
  OCR1A (midiNoteOff n l v) = OCR1A v /\
  OCR1B (midiNoteOff n l v) = OCR1B v /\
  clampNote n = Z.min MIDIHINOTE (Z.max MIDILONOTE n).
Proof.
  pose proof (clampNote_range n) as Hr; unfold MIDILONOTE, MIDIHINOTE in Hr.
  unfold midiNoteOff.
  destruct (Z.eqb_spec (clampNote n) (notePlaying v)) as [E | E].
  - repeat split; try reflexivity; try apply clampNote_spec.
    + intros H. apply (f_equal notePlaying) in H. cbn in H. lia.
    + intros H. contradiction.
  - repeat split; try reflexivity; try apply clampNote_spec; auto.
Qed.

(** ** Trigger pulse *)

Lemma u32_elapsed (s d : Z) :
  0 <= s < 2 ^ 32 -> 0 <= d < 2 ^ 32 -> u32 (u32 (s + d) - s) = d.
Proof.
  intros Hs Hd. unfold u32.
  rewrite Zminus_mod_idemp_l.
  replace (s + d - s) with d by lia.
  apply Z.mod_small; lia.
Qed.

(** C5: triggerOn drives TRIGGER high and records micros(). When micros() is
    [d] microseconds after the recorded start (counted modulo 2^32, so across a
    wrap of the counter), the uint32 difference tested by loop() is exactly
    [d], and the check drives TRIGGER low iff d >= 1000, whatever the gate and
    the rest of the voice state; every tick starts with this check, and when no
    pending note is started in the same tick TRIGGER keeps that level. *)
Theorem C5_trigger_pulse (c : Config) (t t' : Clock) (v : Voice) (d : Z) :
  0 <= triggerPulseBegin v < 2 ^ 32 -> 0 <= d < 2 ^ 32 ->
  micros t' = u32 (triggerPulseBegin v + d) ->
  (TRIGGER_pin (triggerOn t v) = true /\ triggerPulseBegin (triggerOn t v) = micros t) /\
  u32 (micros t' - triggerPulseBegin v) = d /\
  TRIGGER_pin (endTriggerPulse t' v) = (if d >=? TRIGPULSE then false else TRIGGER_pin v) /\
  GATE_pin (endTriggerPulse t' v) = GATE_pin v /\
  notePlaying (endTriggerPulse t' v) = notePlaying v /\
  notePending (endTriggerPulse t' v) = notePending v /\
  triggerPulseBegin (endTriggerPulse t' v) = triggerPulseBegin v /\
  OCR1A (endTriggerPulse t' v) = OCR1A v /\
  tick c t' v = (if MULTI_TRIG c then startPendingNote t' (endTriggerPulse t' v)
                 else endTriggerPulse t' v) /\
  (MULTI_TRIG c = false \/ notePending v = 0 ->
   TRIGGER_pin (tick c t' v) = (if d >=? TRIGPULSE then false else TRIGGER_pin v)).
Proof.
  intros Hs Hd Ht.
  assert (He : u32 (micros t' - triggerPulseBegin v) = d)
    by (rewrite Ht; apply u32_elapsed; assumption).
  split; [split; reflexivity |].
  split; [exact He |].
  unfold tick, endTriggerPulse; rewrite He.
  destruct (d >=? TRIGPULSE); repeat split; try reflexivity;
    try (destruct (MULTI_TRIG c); reflexivity);
    intros [Hm | Hp]; rewrite ?Hm; try reflexivity;
    destruct (MULTI_TRIG c); try reflexivity;
    unfold startPendingNote; cbn; rewrite Hp; reflexivity.
Qed.

Lemma C5_trigger_pulse_witness :
  (TRIGGER_pin (triggerOn (mkClock 0 0) v_pulse_at_wrap) = true /\
   triggerPulseBegin (triggerOn (mkClock 0 0) v_pulse_at_wrap) = micros (mkClock 0 0)) /\
  u32 (micros (mkClock 600 0) - triggerPulseBegin v_pulse_at_wrap) = 1100 /\
  TRIGGER_pin (endTriggerPulse (mkClock 600 0) v_pulse_at_wrap)
    = (if 1100 >=? TRIGPULSE then false else TRIGGER_pin v_pulse_at_wrap) /\
  GATE_pin (endTriggerPulse (mkClock 600 0) v_pulse_at_wrap) = GATE_pin v_pulse_at_wrap /\
  notePlaying (endTriggerPulse (mkClock 600 0) v_pulse_at_wrap) = notePlaying v_pulse_at_wrap /\
  notePending (endTriggerPulse (mkClock 600 0) v_pulse_at_wrap) = notePending v_pulse_at_wrap /\
  triggerPulseBegin (endTriggerPulse (mkClock 600 0) v_pulse_at_wrap)
    = triggerPulseBegin v_pulse_at_wrap /\
  OCR1A (endTriggerPulse (mkClock 600 0) v_pulse_at_wrap) = OCR1A v_pulse_at_wrap /\
  tick cfg_src (mkClock 600 0) v_pulse_at_wrap
    = (if MULTI_TRIG cfg_src
       then startPendingNote (mkClock 600 0) (endTriggerPulse (mkClock 600 0) v_pulse_at_wrap)
       else endTriggerPulse (mkClock 600 0) v_pulse_at_wrap) /\
  (MULTI_TRIG cfg_src = false \/ notePending v_pulse_at_wrap = 0 ->
   TRIGGER_pin (tick cfg_src (mkClock 600 0) v_pulse_at_wrap)
     = (if 1100 >=? TRIGPULSE then false else TRIGGER_pin v_pulse_at_wrap)).
Proof.
  apply C5_trigger_pulse; concrete.
Defined.

(** ** Parser: real-time bytes and running status *)

(** Split on every remaining integer test of the goal. *)
Ltac case_tests :=
  repeat match goal with
  | |- context [if ?a =? ?b then _ else _] =>
      destruct (Z.eqb_spec a b);
      cbn [fst snd andb negb MidiProcess midiStatusByte midiDataByte1 midiDataByte2];
      zbool
  end.

(** C6: a System Real-Time byte (0xF8..0xFF) leaves the parser state and the
    handlers' state unchanged, whatever the handlers are (so no event is
    emitted); and [0x90|ch, 60, 0xF8, 100] on the serviced channel yields
    exactly the event Note-On(60,100), from any parser state. *)
Theorem C6_realtime_ignored {St : Type} (c : Config) offH onH (dH : Z -> St -> St)
        (d : Decoder) (s : St) (b : Z) (d0 : Decoder) (es : list Event) :
  0xF8 <= b <= 0xFF -> 1 <= MIDI_CHAN c <= 16 ->
  MidiProcess c offH onH dH b (d, s) = (d, s) /\
  decode c [Z.lor 0x90 (MIDI_CHAN c - 1); 60; 0xF8; 100] (d0, es)
  = (mkDecoder (Z.lor 0x90 (MIDI_CHAN c - 1)) 0xFF 0xFF, es ++ [EvNoteOn 60 100]).
Proof.
  intros Hb Hc. split.
  - unfold MidiProcess; zbool; reflexivity.
  - destruct (status_bytes _ Hc) as (E1 & E2 & E3).
    unfold decode. step_parser. reflexivity.
Qed.

Lemma C6_realtime_ignored_witness :
  MidiProcess cfg_src recNoteOff recNoteOn recDuty 0xF8
    (mkDecoder 0x9B 60 0xFF, [EvNoteOn 48 90]) = (mkDecoder 0x9B 60 0xFF, [EvNoteOn 48 90]) /\
  decode cfg_src [Z.lor 0x90 (MIDI_CHAN cfg_src - 1); 60; 0xF8; 100] (mkDecoder 0 0 0, [])
  = (mkDecoder (Z.lor 0x90 (MIDI_CHAN cfg_src - 1)) 0xFF 0xFF, [] ++ [EvNoteOn 60 100]).
Proof.
  apply C6_realtime_ignored; concrete.
Defined.

(** C7: once the 2nd data byte of a Note Off / Note On / Control Change on the
    serviced channel is consumed, both data-byte slots hold 0xFF again and the
    running status is unchanged; any status byte followed by two data bytes
    leaves the parser at (status, 0xFF, 0xFF); and [0x90|ch, 60, 100, 61, 110]
    yields exactly Note-On(60,100) then Note-On(61,110). *)
Theorem C7_running_status {St : Type} (c : Config) offH onH (dH : Z -> St -> St)
        (d d' d0 : Decoder) (s : St) (b st d1 d2 : Z) (es : list Event) :
  1 <= MIDI_CHAN c <= 16 ->
  In (midiStatusByte d) [Z.lor 0x80 (MIDI_CHAN c - 1); Z.lor 0x90 (MIDI_CHAN c - 1);
                         Z.lor 0xB0 (MIDI_CHAN c - 1)] ->
  midiDataByte1 d <> 0xFF -> 0 <= b < 128 ->
  0x80 <= st <= 0xEF -> 0 <= d1 < 128 -> 0 <= d2 < 128 ->
  fst (MidiProcess c offH onH dH b (d, s)) = mkDecoder (midiStatusByte d) 0xFF 0xFF /\
  fst (MidiProcessList c offH onH dH [st; d1; d2] (d', s)) = mkDecoder st 0xFF 0xFF /\
  decode c [Z.lor 0x90 (MIDI_CHAN c - 1); 60; 100; 61; 110] (d0, es)
  = (mkDecoder (Z.lor 0x90 (MIDI_CHAN c - 1)) 0xFF 0xFF,
     es ++ [EvNoteOn 60 100; EvNoteOn 61 110]).
Proof.
  intros Hc Hin Hd1 Hb Hst H1 H2.
  destruct (status_bytes _ Hc) as (E1 & E2 & E3).
  split; [| split].
  - rewrite E1, E2, E3 in Hin.
    unfold MidiProcess; cbn [fst]; zbool.
    destruct Hin as [H | [H | [H | []]]]; zbool; reflexivity.
  - step_parser. case_tests; reflexivity.
  - unfold decode. step_parser. unfold recNoteOn. rewrite <- app_assoc. reflexivity.
Qed.

Lemma C7_running_status_witness :
  fst (MidiProcess cfg_src recNoteOff recNoteOn recDuty 61
         (mkDecoder 0x9B 60 0xFF, [])) = mkDecoder (midiStatusByte (mkDecoder 0x9B 60 0xFF)) 0xFF 0xFF /\
  fst (MidiProcessList cfg_src recNoteOff recNoteOn recDuty [0xC0; 5; 6]
         (mkDecoder 0 0 0, [])) = mkDecoder 0xC0 0xFF 0xFF /\
  decode cfg_src [Z.lor 0x90 (MIDI_CHAN cfg_src - 1); 60; 100; 61; 110] (mkDecoder 0 0 0, [])
  = (mkDecoder (Z.lor 0x90 (MIDI_CHAN cfg_src - 1)) 0xFF 0xFF,
     [] ++ [EvNoteOn 60 100; EvNoteOn 61 110]).
Proof.
  apply C7_running_status; try (left; reflexivity); try (right; left; reflexivity); concrete.
Defined.

(** ** Note On with velocity 0 *)

(** C8 (counterexample): from power-on with the source configuration, the
    messages Note On (60, velocity 0) and Note Off (60, level 0) lead to
    different machine states: the running status keeps 0x9B in one case and
    0x8B in the other. *)
Lemma C8_running_status_differs :
  feed cfg_src t_a [0x9B; 60; 0] init <> feed cfg_src t_a [0x8B; 60; 0] init /\
  midiStatusByte (fst (feed cfg_src t_a [0x9B; 60; 0] init)) = 0x9B /\
  midiStatusByte (fst (feed cfg_src t_a [0x8B; 60; 0] init)) = 0x8B /\
  snd (feed cfg_src t_a [0x9B; 60; 0] init) = snd (feed cfg_src t_a [0x8B; 60; 0] init).
Proof. vm_compute. repeat split; congruence. Qed.

(** C8 (amended): a Note On with velocity 0 on the serviced channel calls the
    Note Off handler with (n, 0), as a Note Off message calls it with (n, level),
    whatever the handlers; midiNoteOff ignores the level, so both messages
    leave the same voice state and both data-byte slots at 0xFF; only the
    running status differs, being each message's own status byte. *)
Theorem C8_velocity0_is_note_off {St : Type} (c : Config) offH onH (dH : Z -> St -> St)
        (t t' : Clock) (d d' : Decoder) (s : St) (v : Voice) (n l : Z) :
  1 <= MIDI_CHAN c <= 16 -> 0 <= n < 128 -> 0 <= l < 128 ->
  MidiProcessList c offH onH dH [Z.lor 0x90 (MIDI_CHAN c - 1); n; 0] (d, s)
  = (mkDecoder (Z.lor 0x90 (MIDI_CHAN c - 1)) 0xFF 0xFF, offH n 0 s) /\
  MidiProcessList c offH onH dH [Z.lor 0x80 (MIDI_CHAN c - 1); n; l] (d', s)
  = (mkDecoder (Z.lor 0x80 (MIDI_CHAN c - 1)) 0xFF 0xFF, offH n l s) /\
  snd (feed c t [Z.lor 0x90 (MIDI_CHAN c - 1); n; 0] (d, v))
  = snd (feed c t' [Z.lor 0x80 (MIDI_CHAN c - 1); n; l] (d', v)) /\
  snd (feed c t [Z.lor 0x90 (MIDI_CHAN c - 1); n; 0] (d, v)) = midiNoteOff n l v /\
  Z.lor 0x90 (MIDI_CHAN c - 1) <> Z.lor 0x80 (MIDI_CHAN c - 1).
Proof.
  intros Hc Hn Hl.
  destruct (status_bytes _ Hc) as (E1 & E2 & E3).
  assert (Hon : forall (S : Type) oF oN (dD : Z -> S -> S) (e : Decoder) (x : S),
             MidiProcessList c oF oN dD [Z.lor 0x90 (MIDI_CHAN c - 1); n; 0] (e, x)
             = (mkDecoder (Z.lor 0x90 (MIDI_CHAN c - 1)) 0xFF 0xFF, oF n 0 x))
    by (intros; rewrite msg_note_on by lia; reflexivity).
  assert (Hoff : forall (S : Type) oF oN (dD : Z -> S -> S) (e : Decoder) (x : S),
             MidiProcessList c oF oN dD [Z.lor 0x80 (MIDI_CHAN c - 1); n; l] (e, x)
             = (mkDecoder (Z.lor 0x80 (MIDI_CHAN c - 1)) 0xFF 0xFF, oF n l x))
    by (intros; apply msg_note_off; lia).
  unfold feed. rewrite !Hon, !Hoff. cbn [snd].
  repeat split; try reflexivity. lia.
Qed.

Lemma C8_velocity0_is_note_off_witness :
  MidiProcessList cfg_src recNoteOff recNoteOn recDuty [Z.lor 0x90 (MIDI_CHAN cfg_src - 1); 60; 0]
    (mkDecoder 0 0 0, [])
  = (mkDecoder (Z.lor 0x90 (MIDI_CHAN cfg_src - 1)) 0xFF 0xFF, recNoteOff 60 0 []) /\
  MidiProcessList cfg_src recNoteOff recNoteOn recDuty [Z.lor 0x80 (MIDI_CHAN cfg_src - 1); 60; 64]
    (mkDecoder 0 0 0, [])
  = (mkDecoder (Z.lor 0x80 (MIDI_CHAN cfg_src - 1)) 0xFF 0xFF, recNoteOff 60 64 []) /\
  snd (feed cfg_src t_a [Z.lor 0x90 (MIDI_CHAN cfg_src - 1); 60; 0] (mkDecoder 0 0 0, v_playing60))
  = snd (feed cfg_src t_b [Z.lor 0x80 (MIDI_CHAN cfg_src - 1); 60; 64] (mkDecoder 0 0 0, v_playing60)) /\
  snd (feed cfg_src t_a [Z.lor 0x90 (MIDI_CHAN cfg_src - 1); 60; 0] (mkDecoder 0 0 0, v_playing60))
  = midiNoteOff 60 64 v_playing60 /\
  Z.lor 0x90 (MIDI_CHAN cfg_src - 1) <> Z.lor 0x80 (MIDI_CHAN cfg_src - 1).
Proof.
  apply C8_velocity0_is_note_off; concrete.
Defined.

(** ** Legato mode *)

(** C9: with multi-trigger disabled, a Note On always writes the clamped note's
    pitch level and sets notePlaying to the clamped note; when a note was
    already playing the gate, the trigger output and the pulse start are left
    as they were, and when none was playing the gate goes on and a trigger
    pulse starts. *)
Theorem C9_legato_note_on (c : Config) (t : Clock) (n vel : Z) (v : Voice) :
  MULTI_TRIG c = false ->
  OCR1A (midiNoteOn c t n vel v) = (clampNote n - MIDILONOTE) * 4 /\
  notePlaying (midiNoteOn c t n vel v) = clampNote n /\
  notePending (midiNoteOn c t n vel v) = notePending v /\
  (notePlaying v <> 0 ->
   GATE_pin (midiNoteOn c t n vel v) = GATE_pin v /\
   TRIGGER_pin (midiNoteOn c t n vel v) = TRIGGER_pin v /\
   triggerPulseBegin (midiNoteOn c t n vel v) = triggerPulseBegin v) /\
  (notePlaying v = 0 ->
   GATE_pin (midiNoteOn c t n vel v) = true /\
   TRIGGER_pin (midiNoteOn c t n vel v) = true /\
   triggerPulseBegin (midiNoteOn c t n vel v) = micros t).
Proof.
  intros Hm.
  pose proof (clampNote_range n) as Hr; unfold MIDILONOTE, MIDIHINOTE in Hr.
  unfold midiNoteOn; rewrite Hm; cbn.
  destruct (Z.eqb_spec (notePlaying v) 0) as [E | E];
    destruct (Ascii.eqb (AMPLD_CV_MSG c) "V"%char); cbn;
    repeat split; intros; try reflexivity; try contradiction;
    apply u8_id; unfold MIDILONOTE; lia.
Qed.

Lemma C9_legato_note_on_witness :
  OCR1A (midiNoteOn cfg_src t_a 64 90 v_playing60) = (clampNote 64 - MIDILONOTE) * 4 /\
  notePlaying (midiNoteOn cfg_src t_a 64 90 v_playing60) = clampNote 64 /\
  notePending (midiNoteOn cfg_src t_a 64 90 v_playing60) = notePending v_playing60 /\
  (notePlaying v_playing60 <> 0 ->
   GATE_pin (midiNoteOn cfg_src t_a 64 90 v_playing60) = GATE_pin v_playing60 /\
   TRIGGER_pin (midiNoteOn cfg_src t_a 64 90 v_playing60) = TRIGGER_pin v_playing60 /\
   triggerPulseBegin (midiNoteOn cfg_src t_a 64 90 v_playing60) = triggerPulseBegin v_playing60) /\
  (notePlaying v_playing60 = 0 ->
   GATE_pin (midiNoteOn cfg_src t_a 64 90 v_playing60) = true /\
   TRIGGER_pin (midiNoteOn cfg_src t_a 64 90 v_playing60) = true /\
   triggerPulseBegin (midiNoteOn cfg_src t_a 64 90 v_playing60) = micros t_a).
Proof.
  apply C9_legato_note_on; reflexivity.
Defined.

(** ** Note Off during the multi-trigger gate-off interval *)

(** C10: in multi-trigger mode, while a note is pending (notePlaying = 0,
    notePending set), a Note Off for any note number, the pending one
    included, and a Note On with velocity 0, leave the voice state unchanged;
    the next tick at least 5 ms after gateDelayBegin still starts the pending
    note (pitch, gate on, trigger pulse, notePlaying = pending note). *)
Theorem C10_note_off_keeps_pending (c : Config) (t t0 : Clock) (d : Decoder)
        (v : Voice) (n l : Z) :
  MULTI_TRIG c = true -> 1 <= MIDI_CHAN c <= 16 ->
  notePlaying v = 0 -> notePending v <> 0 -> 0 <= notePending v <= 255 ->
  0 <= n < 128 -> 0 <= l < 128 ->
  u32 (millis t - gateDelayBegin v) >= 5 ->
  midiNoteOff n l v = v /\
  midiNoteOff (notePending v) l v = v /\
  snd (feed c t0 [Z.lor 0x80 (MIDI_CHAN c - 1); n; l] (d, v)) = v /\
  snd (feed c t0 [Z.lor 0x90 (MIDI_CHAN c - 1); n; 0] (d, v)) = v /\
  OCR1A (tick c t v) = u8 ((notePending v - MIDILONOTE) * 4) /\
  GATE_pin (tick c t v) = true /\
  TRIGGER_pin (tick c t v) = true /\
  triggerPulseBegin (tick c t v) = micros t /\
  notePlaying (tick c t v) = notePending v /\
  notePending (tick c t v) = 0.
Proof.
  intros Hm Hc Hp Hw Hwr Hn Hl Hd.
  assert (Hoff : forall k lv, midiNoteOff k lv v = v).
  { intros k lv. unfold midiNoteOff.
    pose proof (clampNote_range k) as Hr; unfold MIDILONOTE, MIDIHINOTE in Hr.
    rewrite Zeqb_false by lia. reflexivity. }
  split; [apply Hoff |]. split; [apply Hoff |].
  split; [unfold feed; rewrite msg_note_off by lia; apply Hoff |].
  split; [unfold feed; rewrite msg_note_on by lia; apply Hoff |].
  apply tick_promotes_pending; assumption.
Qed.

(** Multi-trigger mode: note 60 playing, Note On 62 defers it (v_deferred62). *)
Lemma C10_note_off_keeps_pending_witness :
  midiNoteOff 62 0 v_deferred62 = v_deferred62 /\
  midiNoteOff (notePending v_deferred62) 0 v_deferred62 = v_deferred62 /\
  snd (feed cfg_multi t_b [Z.lor 0x80 (MIDI_CHAN cfg_multi - 1); 62; 0] (mkDecoder 0x9B 0xFF 0xFF, v_deferred62))
    = v_deferred62 /\
  snd (feed cfg_multi t_b [Z.lor 0x90 (MIDI_CHAN cfg_multi - 1); 62; 0] (mkDecoder 0x9B 0xFF 0xFF, v_deferred62))
    = v_deferred62 /\
  OCR1A (tick cfg_multi t_d v_deferred62) = u8 ((notePending v_deferred62 - MIDILONOTE) * 4) /\
  GATE_pin (tick cfg_multi t_d v_deferred62) = true /\
  TRIGGER_pin (tick cfg_multi t_d v_deferred62) = true /\
  triggerPulseBegin (tick cfg_multi t_d v_deferred62) = micros t_d /\
  notePlaying (tick cfg_multi t_d v_deferred62) = notePending v_deferred62 /\
  notePending (tick cfg_multi t_d v_deferred62) = 0.
Proof.
  apply C10_note_off_keeps_pending; concrete.
Defined.

(** * Further properties of the sketch *)

(** ** Reachable states of loop() *)

Lemma u8_clamp (n : Z) : u8 (clampNote n) = clampNote n.
Proof.
  pose proof (clampNote_range n) as Hr; unfold MIDILONOTE, MIDIHINOTE in Hr.
  apply u8_id; lia.
Qed.

Lemma pitch_level_ok (x : Z) :
  MIDILONOTE <= x <= MIDIHINOTE -> 0 <= u8 ((x - MIDILONOTE) * 4) <= 240.
Proof.
  unfold MIDILONOTE, MIDIHINOTE; intros H.
  rewrite u8_id by lia; lia.
Qed.

Lemma ampl_level_ok (x : Z) : 0 <= x <= 127 -> 0 <= u8 (240 * x / 128) <= 238.
Proof.
  intros H.
  assert (0 <= 240 * x / 128) by (apply Z.div_pos; lia).
  assert (240 * x / 128 < 239) by (apply Z.div_lt_upper_bound; lia).
  rewrite u8_id by lia; lia.
Qed.

Ltac inv_fields :=
  constructor; cbn [notePlaying notePending triggerPulseBegin gateDelayBegin
                    OCR1A OCR1B GATE_pin TRIGGER_pin]; rewrite ?u8_clamp.

Lemma inv_duty1B (c : Config) (x : Z) (v : Voice) :
  VoiceInv c v -> 0 <= x <= 127 -> VoiceInv c (SetDutyPWM1B (240 * x / 128) v).
Proof.
  intros [Hg Hp Hq Ha Hb Hl] Hx; unfold SetDutyPWM1B; inv_fields; auto.
  apply ampl_level_ok; assumption.
Qed.

Lemma inv_noteOn (c : Config) (t : Clock) (n vel : Z) (v : Voice) :
  VoiceInv c v -> 0 <= vel <= 127 -> VoiceInv c (midiNoteOn c t n vel v).
Proof.
  intros Hinv Hv.
  assert (Hcore : VoiceInv c
    (if MULTI_TRIG c then
       if negb (notePlaying v =? 0) then
         set_gateDelayBegin (millis t)
           (set_notePending (clampNote n) (set_notePlaying 0 (gateOff v)))
       else
         set_notePlaying (clampNote n)
           (triggerOn t (gateOn (SetDutyPWM1A ((clampNote n - MIDILONOTE) * 4) v)))
     else
       set_notePlaying (clampNote n)
         (if notePlaying (SetDutyPWM1A ((clampNote n - MIDILONOTE) * 4) v) =? 0
          then triggerOn t (gateOn (SetDutyPWM1A ((clampNote n - MIDILONOTE) * 4) v))
          else SetDutyPWM1A ((clampNote n - MIDILONOTE) * 4) v))).
  { destruct Hinv as [Hg Hp Hq Ha Hb Hl].
    pose proof (clampNote_range n) as Hr.
    pose proof (pitch_level_ok _ Hr) as Hpl.
    unfold note_ok in *; unfold MIDILONOTE, MIDIHINOTE in *.
    cbn [notePlaying SetDutyPWM1A].
    destruct (MULTI_TRIG c) eqn:Hm;
      [destruct (Z.eqb_spec (notePlaying v) 0) as [E | E] |
       destruct (Z.eqb_spec (notePlaying v) 0) as [E | E]]; cbn [negb];
    unfold SetDutyPWM1A, set_notePlaying, set_notePending, set_gateDelayBegin,
      triggerOn, set_triggerPulseBegin, gateOn, gateOff,
      digitalWrite_GATE, digitalWrite_TRIGGER;
    inv_fields; unfold note_ok; try (intros; congruence);
      rewrite ?Hg; zbool; try reflexivity; try (left; reflexivity); try (right; lia); auto. }
  unfold midiNoteOn; cbv zeta.
  destruct (Ascii.eqb (AMPLD_CV_MSG c) "V"%char); [apply inv_duty1B |]; assumption.
Qed.

Lemma inv_noteOff (c : Config) (n l : Z) (v : Voice) :
  VoiceInv c v -> VoiceInv c (midiNoteOff n l v).
Proof.
  intros Hinv; unfold midiNoteOff.
  destruct (clampNote n =? notePlaying v); [| assumption].
  destruct Hinv as [Hg Hp Hq Ha Hb Hl].
  unfold gateOff, digitalWrite_GATE, set_notePlaying; inv_fields; auto.
  left; reflexivity.
Qed.

Lemma inv_tick (c : Config) (t : Clock) (v : Voice) :
  VoiceInv c v -> VoiceInv c (tick c t v).
Proof.
  intros Hinv.
  assert (He : VoiceInv c (endTriggerPulse t v)).
  { unfold endTriggerPulse; destruct (_ >=? _); [| assumption].
    destruct Hinv as [Hg Hp Hq Ha Hb Hl].
    unfold digitalWrite_TRIGGER; inv_fields; auto. }
  unfold tick; destruct (MULTI_TRIG c) eqn:Hm; cbn [negb]; [| assumption].
  unfold startPendingNote.
  destruct He as [Hg Hp Hq Ha Hb Hl].
  destruct (Z.eqb_spec (notePending (endTriggerPulse t v)) 0) as [E | E]; cbn [negb andb].
  { constructor; assumption. }
  destruct (_ >=? 5); [| constructor; assumption].
  assert (Hr : MIDILONOTE <= notePending (endTriggerPulse t v) <= MIDIHINOTE)
    by (destruct Hq; [contradiction | assumption]).
  pose proof (pitch_level_ok _ Hr) as Hpl.
  unfold MIDILONOTE, MIDIHINOTE in *.
  unfold SetDutyPWM1A, set_notePlaying, set_notePending, triggerOn,
    set_triggerPulseBegin, gateOn, digitalWrite_GATE, digitalWrite_TRIGGER.
  inv_fields; unfold note_ok; try (intros; congruence);
    rewrite ?u8_id by lia; zbool; try reflexivity; try (left; reflexivity);
    try (right; lia); auto.
Qed.

Lemma inv_processByte (c : Config) (t : Clock) (b : Z) (m : Machine) :
  0 <= b <= 255 -> VoiceInv c (snd m) -> VoiceInv c (snd (processByte c t b m)).
Proof.
  intros Hb Hinv; destruct m as [d v]; cbn [snd] in Hinv.
  unfold processByte, MidiProcess.
  destruct (Z_lt_le_dec b 128) as [Hd | Hs].
  - zbool; cbn [andb].
    repeat match goal with
    | |- context [if ?x then _ else _] => destruct x
    end; cbn [snd];
    repeat first [ apply inv_noteOff | apply inv_noteOn; [| lia]
                 | apply inv_duty1B; [| lia] ]; assumption.
  - destruct (Z_lt_le_dec b 0xF0); [| destruct (Z_lt_le_dec b 0xF8)];
      zbool; cbn [andb snd]; assumption.
Qed.

Lemma inv_loop (c : Config) (inp : option Z) (t : Clock) (m : Machine) :
  byte_ok inp -> VoiceInv c (snd m) -> VoiceInv c (snd (loop c inp t m)).
Proof.
  intros Hb Hinv; unfold loop; cbn [snd].
  apply inv_tick.
  destruct inp as [b |]; [apply inv_processByte |]; assumption.
Qed.

Lemma reachable_inv (c : Config) (m : Machine) :
  reachable c m -> VoiceInv c (snd m).
Proof.
  induction 1 as [| m inp t _ IH Hb].
  - constructor; cbn; try reflexivity; try (left; reflexivity); try lia; auto.
  - apply inv_loop; assumption.
Qed.

Lemma reachable_run (c : Config) (steps : list (option Z * Clock)) (m : Machine) :
  reachable c m -> Forall (fun st => byte_ok (fst st)) steps ->
  reachable c (run c steps m).
Proof.
  revert m; induction steps as [| [inp t] steps IH]; intros m Hm Hs; cbn [run fold_left].
  - exact Hm.
  - inversion Hs as [| x l Hx Hrest]; subst.
    apply IH; [apply reach_loop |]; assumption.
Qed.

Lemma overlap_reachable : reachable cfg_multi (run cfg_multi overlap_steps init).
Proof.
  apply reachable_run; [apply reach_init |].
  repeat constructor; cbn; lia.
Qed.

Lemma played100_reachable :
  reachable cfg_src (run cfg_src [(Some 0x9B, t_a); (Some 100, t_a); (Some 64, t_a)] init).
Proof.
  apply reachable_run; [apply reach_init |].
  repeat constructor; cbn; lia.
Qed.

(** X1: in every state reachable from power-on, in both modes, the GATE output
    is high exactly when notePlaying is nonzero. *)
Theorem X1_gate_iff_playing (c : Config) (m : Machine) :
  reachable c m -> GATE_pin (snd m) = negb (notePlaying (snd m) =? 0).
Proof. intros H; apply (reachable_inv c m H). Qed.

Lemma X1_gate_iff_playing_witness :
  GATE_pin (snd (run cfg_multi overlap_steps init))
  = negb (notePlaying (snd (run cfg_multi overlap_steps init)) =? 0).
Proof. apply (X1_gate_iff_playing cfg_multi); apply overlap_reachable. Defined.

(** X2: in every reachable state notePlaying and notePending are each either 0
    or a note of the range [36, 96]. *)
Theorem X2_note_fields_in_range (c : Config) (m : Machine) :
  reachable c m ->
  (notePlaying (snd m) = 0 \/ MIDILONOTE <= notePlaying (snd m) <= MIDIHINOTE) /\
  (notePending (snd m) = 0 \/ MIDILONOTE <= notePending (snd m) <= MIDIHINOTE).
Proof.
  intros H; destruct (reachable_inv c m H) as [_ Hp Hq _ _ _]; split; assumption.
Qed.

Lemma X2_note_fields_in_range_witness :
  (notePlaying (snd (run cfg_multi overlap_steps init)) = 0 \/
   MIDILONOTE <= notePlaying (snd (run cfg_multi overlap_steps init)) <= MIDIHINOTE) /\
  (notePending (snd (run cfg_multi overlap_steps init)) = 0 \/
   MIDILONOTE <= notePending (snd (run cfg_multi overlap_steps init)) <= MIDIHINOTE).
Proof. apply (X2_note_fields_in_range cfg_multi); apply overlap_reachable. Defined.



(** X4: with multi-trigger disabled, notePending stays 0 in every reachable
    state. *)
Theorem X4_legato_never_pending (c : Config) (m : Machine) :
  reachable c m -> MULTI_TRIG c = false -> notePending (snd m) = 0.
Proof. intros H; apply (reachable_inv c m H). Qed.

Lemma X4_legato_never_pending_witness :
  notePending (snd (run cfg_src [(Some 0x9B, t_a); (Some 100, t_a); (Some 64, t_a)] init)) = 0.
Proof. apply (X4_legato_never_pending cfg_src); [apply played100_reachable | reflexivity]. Defined.

(** ** Note On, amplitude output and Control Change *)

(** X5: in multi-trigger mode a Note On while notePlaying is 0 starts the note
    at once: pitch level of the clamped note, gate on, a trigger pulse from
    micros(), notePlaying = clamped note; notePending is left as it was. *)
Theorem X5_multi_fresh_note_on (c : Config) (t : Clock) (n vel : Z) (v : Voice) :
  MULTI_TRIG c = true -> notePlaying v = 0 ->
  OCR1A (midiNoteOn c t n vel v) = (clampNote n - MIDILONOTE) * 4 /\
  GATE_pin (midiNoteOn c t n vel v) = true /\
  TRIGGER_pin (midiNoteOn c t n vel v) = true /\
  triggerPulseBegin (midiNoteOn c t n vel v) = micros t /\
  notePlaying (midiNoteOn c t n vel v) = clampNote n /\
  notePending (midiNoteOn c t n vel v) = notePending v.
Proof.
  intros Hm Hp.
  pose proof (clampNote_range n) as Hr; unfold MIDILONOTE, MIDIHINOTE in Hr.
  unfold midiNoteOn; rewrite Hm, Hp; cbn.
  destruct (Ascii.eqb (AMPLD_CV_MSG c) "V"%char); cbn;
    repeat split; try reflexivity; apply u8_id; unfold MIDILONOTE; lia.
Qed.

Lemma X5_multi_fresh_note_on_witness :
  OCR1A (midiNoteOn cfg_multi t_a 20 90 (snd init)) = (clampNote 20 - MIDILONOTE) * 4 /\
  GATE_pin (midiNoteOn cfg_multi t_a 20 90 (snd init)) = true /\
  TRIGGER_pin (midiNoteOn cfg_multi t_a 20 90 (snd init)) = true /\
  triggerPulseBegin (midiNoteOn cfg_multi t_a 20 90 (snd init)) = micros t_a /\
  notePlaying (midiNoteOn cfg_multi t_a 20 90 (snd init)) = clampNote 20 /\
  notePending (midiNoteOn cfg_multi t_a 20 90 (snd init)) = notePending (snd init).
Proof. apply X5_multi_fresh_note_on; reflexivity. Defined.

(** X6: in both modes, when the amplitude source is velocity ('V') every Note
    On with velocity 0..127 sets OCR1B to 240 * velocity / 128 (at most 238);
    with any other source a Note On leaves OCR1B unchanged. *)
Theorem X6_velocity_amplitude (c : Config) (t : Clock) (n vel : Z) (v : Voice) :
  0 <= vel <= 127 ->
  OCR1B (midiNoteOn c t n vel v)
  = (if Ascii.eqb (AMPLD_CV_MSG c) "V"%char then 240 * vel / 128 else OCR1B v) /\
  OCR1B (midiNoteOn c t n vel v) <= Z.max 238 (OCR1B v).
Proof.
  intros Hv.
  assert (Hcore : forall w,
    OCR1B (if Ascii.eqb (AMPLD_CV_MSG c) "V"%char
           then SetDutyPWM1B (240 * vel / 128) w else w)
    = (if Ascii.eqb (AMPLD_CV_MSG c) "V"%char then 240 * vel / 128 else OCR1B w)).
  { intros w; destruct (Ascii.eqb _ _); cbn [OCR1B SetDutyPWM1B]; [| reflexivity].
    pose proof (ampl_level_ok vel Hv) as Ha.
    assert (0 <= 240 * vel / 128) by (apply Z.div_pos; lia).
    assert (240 * vel / 128 < 239) by (apply Z.div_lt_upper_bound; lia).
    apply u8_id; lia. }
  assert (Heq : OCR1B (midiNoteOn c t n vel v)
    = (if Ascii.eqb (AMPLD_CV_MSG c) "V"%char then 240 * vel / 128 else OCR1B v)).
  { unfold midiNoteOn; cbv zeta; rewrite Hcore.
    destruct (Ascii.eqb _ _); [reflexivity |].
    destruct (MULTI_TRIG c); [destruct (negb _) |]; cbn; try reflexivity.
    destruct (notePlaying v =? 0); reflexivity. }
  split; [exact Heq |]. rewrite Heq.
  destruct (Ascii.eqb _ _); [| lia].
  assert (240 * vel / 128 < 239) by (apply Z.div_lt_upper_bound; lia). lia.
Qed.

Lemma X6_velocity_amplitude_witness :
  OCR1B (midiNoteOn cfg_src t_a 60 127 (snd init))
  = (if Ascii.eqb (AMPLD_CV_MSG cfg_src) "V"%char then 240 * 127 / 128 else OCR1B (snd init)) /\
  OCR1B (midiNoteOn cfg_src t_a 60 127 (snd init)) <= Z.max 238 (OCR1B (snd init)).
Proof. apply X6_velocity_amplitude; lia. Defined.

(** X7: a complete Control Change message [0xB0|ch, cc, x] on the serviced
    channel leaves the parser at (0xB0|ch, 0xFF, 0xFF); on the voice it sets
    OCR1B to 240 * x / 128 when cc = 1 with source 'M' or cc = 2 with source
    'B', and changes nothing otherwise. *)
Theorem X7_control_change (c : Config) (t : Clock) (d : Decoder) (v : Voice) (cc x : Z) :
  1 <= MIDI_CHAN c <= 16 -> 0 <= cc < 128 -> 0 <= x < 128 ->
  feed c t [Z.lor 0xB0 (MIDI_CHAN c - 1); cc; x] (d, v)
  = (mkDecoder (Z.lor 0xB0 (MIDI_CHAN c - 1)) 0xFF 0xFF,
     if ((cc =? 1) && Ascii.eqb (AMPLD_CV_MSG c) "M"%char)
        || ((cc =? 2) && Ascii.eqb (AMPLD_CV_MSG c) "B"%char)
     then SetDutyPWM1B (240 * x / 128) v else v).
Proof.
  intros Hc Hcc Hx.
  destruct (status_bytes _ Hc) as (E1 & E2 & E3).
  unfold feed. step_parser.
  destruct (cc =? 1), (cc =? 2); cbn [andb orb];
    destruct (Ascii.eqb (AMPLD_CV_MSG c) "M"%char), (Ascii.eqb (AMPLD_CV_MSG c) "B"%char);
    reflexivity.
Qed.

Lemma X7_control_change_witness :
  feed cfg_breath t_a [Z.lor 0xB0 (MIDI_CHAN cfg_breath - 1); 2; 64] (mkDecoder 0 0 0, snd init)
  = (mkDecoder (Z.lor 0xB0 (MIDI_CHAN cfg_breath - 1)) 0xFF 0xFF,
     if ((2 =? 1) && Ascii.eqb (AMPLD_CV_MSG cfg_breath) "M"%char)
        || ((2 =? 2) && Ascii.eqb (AMPLD_CV_MSG cfg_breath) "B"%char)
     then SetDutyPWM1B (240 * 64 / 128) (snd init) else snd init).
Proof. apply X7_control_change; concrete. Defined.

(** ** Bytes that produce no event *)

Lemma data_byte_ignored {St : Type} (c : Config) offH onH (dH : Z -> St -> St)
      (b : Z) (d : Decoder) (s : St) :
  (midiStatusByte d = 0 \/ ~ In (midiStatusByte d) (serviced c)) -> data_byte b ->
  MidiProcess c offH onH dH b (d, s) = (d, s).
Proof.
  unfold data_byte, serviced; intros Hst Hb.
  unfold MidiProcess; zbool; cbn [andb].
  destruct (Z.eqb_spec (midiStatusByte d) 0) as [E | E]; [reflexivity |].
  destruct Hst as [Hst | Hst]; [contradiction |].
  destruct (Z.eqb_spec (midiStatusByte d) (Z.lor 0x80 (MIDI_CHAN c - 1)));
    [exfalso; apply Hst; left; auto |].
  destruct (Z.eqb_spec (midiStatusByte d) (Z.lor 0x90 (MIDI_CHAN c - 1)));
    [exfalso; apply Hst; right; left; auto |].
  destruct (Z.eqb_spec (midiStatusByte d) (Z.lor 0xB0 (MIDI_CHAN c - 1)));
    [exfalso; apply Hst; right; right; left; auto |].
  reflexivity.
Qed.

Lemma data_bytes_ignored {St : Type} (c : Config) offH onH (dH : Z -> St -> St)
      (ds : list Z) (d : Decoder) (s : St) :
  (midiStatusByte d = 0 \/ ~ In (midiStatusByte d) (serviced c)) -> Forall data_byte ds ->
  MidiProcessList c offH onH dH ds (d, s) = (d, s).
Proof.
  intros Hst Hds; induction Hds as [| b ds Hb _ IH]; [reflexivity |].
  cbn [MidiProcessList fold_left].
  rewrite data_byte_ignored by assumption. exact IH.
Qed.

(** X8: while no running status is set (at power-on, or after a System Common
    byte) every data byte is dropped: the parser state and the handlers' state
    are unchanged, whatever the handlers. *)
Theorem X8_no_status_data_dropped {St : Type} (c : Config) offH onH (dH : Z -> St -> St)
        (ds : list Z) (d : Decoder) (s : St) :
  midiStatusByte d = 0 -> Forall data_byte ds ->
  MidiProcessList c offH onH dH ds (d, s) = (d, s).
Proof. intros H; apply data_bytes_ignored; left; exact H. Qed.

Lemma X8_no_status_data_dropped_witness :
  MidiProcessList cfg_src midiNoteOff (midiNoteOn cfg_src t_a) SetDutyPWM1B
    [60; 100; 62] (fst init, snd init) = (fst init, snd init).
Proof. apply X8_no_status_data_dropped; [reflexivity | repeat constructor; unfold data_byte; lia]. Defined.

(** X9: a System Common byte (0xF0..0xF7) cancels a message in progress: it
    clears the running status, keeps the slots, and the data bytes that follow
    are all dropped, with no handler called. *)
Theorem X9_system_common_cancels {St : Type} (c : Config) offH onH (dH : Z -> St -> St)
        (b : Z) (ds : list Z) (d : Decoder) (s : St) :
  0xF0 <= b <= 0xF7 -> Forall data_byte ds ->
  MidiProcessList c offH onH dH (b :: ds) (d, s)
  = (mkDecoder 0 (midiDataByte1 d) (midiDataByte2 d), s).
Proof.
  intros Hb Hds; cbn [MidiProcessList fold_left].
  assert (E : MidiProcess c offH onH dH b (d, s)
              = (mkDecoder 0 (midiDataByte1 d) (midiDataByte2 d), s))
    by (unfold MidiProcess; zbool; reflexivity).
  rewrite E. apply (data_bytes_ignored c offH onH dH ds _ s); [left; reflexivity | exact Hds].
Qed.

Lemma X9_system_common_cancels_witness :
  MidiProcessList cfg_src recNoteOff recNoteOn recDuty [0xF2; 100]
    (mkDecoder 0x9B 60 0xFF, [])
  = (mkDecoder 0 (midiDataByte1 (mkDecoder 0x9B 60 0xFF)) (midiDataByte2 (mkDecoder 0x9B 60 0xFF)), []).
Proof. apply X9_system_common_cancels; [lia | repeat constructor; unfold data_byte; lia]. Defined.

(** X10: a channel-voice status byte other than Note Off / Note On / Control
    Change on the serviced channel (another message type, or another channel)
    is followed by data bytes that are all consumed with no handler called;
    the parser stays at (status, 0xFF, 0xFF). *)
Theorem X10_unserviced_status_drained {St : Type} (c : Config) offH onH
        (dH : Z -> St -> St) (st : Z) (ds : list Z) (d : Decoder) (s : St) :
  0x80 <= st <= 0xEF -> ~ In st (serviced c) -> Forall data_byte ds ->
  MidiProcessList c offH onH dH (st :: ds) (d, s) = (mkDecoder st 0xFF 0xFF, s).
Proof.
  intros Hst Hn Hds; cbn [MidiProcessList fold_left].
  assert (E : MidiProcess c offH onH dH st (d, s) = (mkDecoder st 0xFF 0xFF, s))
    by (unfold MidiProcess; zbool; reflexivity).
  rewrite E. apply (data_bytes_ignored c offH onH dH ds _ s); [right; exact Hn | exact Hds].
Qed.

Lemma X10_unserviced_status_drained_witness :
  MidiProcessList cfg_src recNoteOff recNoteOn recDuty [0x90; 60; 100; 62; 0]
    (mkDecoder 0 0 0, []) = (mkDecoder 0x90 0xFF 0xFF, []).
Proof.
  apply X10_unserviced_status_drained;
    [lia | vm_compute; intuition discriminate
         | repeat constructor; unfold data_byte; lia].
Defined.

(** ** Ticks that start no note *)

(** X11: when no pending note is due (legato mode, notePending = 0, or less
    than 5 ms since gateDelayBegin), a tick only acts on the trigger output:
    notes, gate, both duty registers and both time stamps are unchanged, and
    the trigger can go low but never high. *)
Theorem X11_tick_without_pending (c : Config) (t : Clock) (v : Voice) :
  MULTI_TRIG c = false \/ notePending v = 0 \/ u32 (millis t - gateDelayBegin v) < 5 ->
  notePlaying (tick c t v) = notePlaying v /\
  notePending (tick c t v) = notePending v /\
  GATE_pin (tick c t v) = GATE_pin v /\
  OCR1A (tick c t v) = OCR1A v /\
  OCR1B (tick c t v) = OCR1B v /\
  triggerPulseBegin (tick c t v) = triggerPulseBegin v /\
  gateDelayBegin (tick c t v) = gateDelayBegin v /\
  (TRIGGER_pin (tick c t v) = true -> TRIGGER_pin v = true).
Proof.
  intros H.
  assert (Ht : tick c t v = endTriggerPulse t v).
  { unfold tick; destruct (MULTI_TRIG c) eqn:Hm; cbn [negb]; [| reflexivity].
    unfold startPendingNote.
    assert (Hf : negb (notePending (endTriggerPulse t v) =? 0)
                 && (u32 (millis t - gateDelayBegin (endTriggerPulse t v)) >=? 5) = false).
    { unfold endTriggerPulse; destruct (_ >=? TRIGPULSE); cbn;
        destruct H as [H | [H | H]];
        first [ congruence | rewrite H; reflexivity
              | replace (u32 (millis t - gateDelayBegin v) >=? 5) with false
                  by (symmetry; rewrite Z.geb_leb; apply Z.leb_gt; lia);
                apply andb_false_r ]. }
    rewrite Hf; reflexivity. }
  rewrite Ht; unfold endTriggerPulse.
  destruct (_ >=? TRIGPULSE); cbn; repeat split; auto; discriminate.
Qed.

Lemma X11_tick_without_pending_witness :
  notePlaying (tick cfg_multi t_c v_deferred62) = notePlaying v_deferred62 /\
  notePending (tick cfg_multi t_c v_deferred62) = notePending v_deferred62 /\
  GATE_pin (tick cfg_multi t_c v_deferred62) = GATE_pin v_deferred62 /\
  OCR1A (tick cfg_multi t_c v_deferred62) = OCR1A v_deferred62 /\
  OCR1B (tick cfg_multi t_c v_deferred62) = OCR1B v_deferred62 /\
  triggerPulseBegin (tick cfg_multi t_c v_deferred62) = triggerPulseBegin v_deferred62 /\
  gateDelayBegin (tick cfg_multi t_c v_deferred62) = gateDelayBegin v_deferred62 /\
  (TRIGGER_pin (tick cfg_multi t_c v_deferred62) = true -> TRIGGER_pin v_deferred62 = true).
Proof. apply X11_tick_without_pending; right; right; vm_compute; reflexivity. Defined.

(** ** Legato overlap *)

(** X12: in legato mode, with note a playing, a Note On for another in-range
    note b keeps the gate as it was and makes b the playing note; a Note Off
    for the old note a then has no effect, and a Note Off for b turns the gate
    off and clears notePlaying. *)
Theorem X12_legato_overlap (c : Config) (t : Clock) (a b vel l : Z) (v : Voice) :
  MULTI_TRIG c = false ->
  MIDILONOTE <= a <= MIDIHINOTE -> MIDILONOTE <= b <= MIDIHINOTE -> a <> b ->
  notePlaying v = a ->
  GATE_pin (midiNoteOn c t b vel v) = GATE_pin v /\
  notePlaying (midiNoteOn c t b vel v) = b /\
  midiNoteOff a l (midiNoteOn c t b vel v) = midiNoteOn c t b vel v /\
  GATE_pin (midiNoteOff b l (midiNoteOn c t b vel v)) = false /\
  notePlaying (midiNoteOff b l (midiNoteOn c t b vel v)) = 0.
Proof.
  intros Hm Ha Hb Hab Hp.
  assert (Ca : clampNote a = a) by (rewrite clampNote_spec; lia).
  assert (Cb : clampNote b = b) by (rewrite clampNote_spec; lia).
  assert (Hpb : notePlaying (midiNoteOn c t b vel v) = b).
  { unfold midiNoteOn; rewrite Hm; cbn.
    destruct (Ascii.eqb _ _); cbn; destruct (notePlaying v =? 0);
      rewrite u8_clamp; exact Cb. }
  unfold MIDILONOTE, MIDIHINOTE in *.
  split; [| split; [exact Hpb |]].
  - unfold midiNoteOn; rewrite Hm; cbn.
    rewrite (Zeqb_false (notePlaying v) 0) by lia.
    destruct (Ascii.eqb _ _); reflexivity.
  - unfold midiNoteOff at 1 2 3; rewrite Hpb, Ca, Cb.
    rewrite (Zeqb_false a b) by assumption; rewrite Z.eqb_refl.
    repeat split; reflexivity.
Qed.

Lemma X12_legato_overlap_witness :
  GATE_pin (midiNoteOn cfg_src t_a 64 90 v_playing60) = GATE_pin v_playing60 /\
  notePlaying (midiNoteOn cfg_src t_a 64 90 v_playing60) = 64 /\
  midiNoteOff 60 0 (midiNoteOn cfg_src t_a 64 90 v_playing60) = midiNoteOn cfg_src t_a 64 90 v_playing60 /\
  GATE_pin (midiNoteOff 64 0 (midiNoteOn cfg_src t_a 64 90 v_playing60)) = false /\
  notePlaying (midiNoteOff 64 0 (midiNoteOn cfg_src t_a 64 90 v_playing60)) = 0.
Proof. apply X12_legato_overlap; concrete. Defined.

(** ** The parser's effect is the replay of its events *)

(** Running the parser over two handler sets related by a map [f] that
    commutes with the handlers. *)
Section Simulation.
Context {S1 S2 : Type}.
Variable c : Config.
Variables (off1 on1 : Z -> Z -> S1 -> S1) (dt1 : Z -> S1 -> S1).
Variables (off2 on2 : Z -> Z -> S2 -> S2) (dt2 : Z -> S2 -> S2).
Variable f : S1 -> S2.
Hypothesis f_off : forall n l s, f (off1 n l s) = off2 n l (f s).
Hypothesis f_on : forall n l s, f (on1 n l s) = on2 n l (f s).
Hypothesis f_dt : forall x s, f (dt1 x s) = dt2 x (f s).


End Simulation.


(** ** A status byte in the middle of a message *)

(** X14: a channel-voice status byte that arrives after only the first data
    byte of a message discards that byte: no handler is called for the
    unfinished message, and decoding goes on from (new status, 0xFF, 0xFF). *)
Theorem X14_status_discards_partial {St : Type} (c : Config) offH onH
        (dH : Z -> St -> St) (st1 n st2 : Z) (rest : list Z) (d : Decoder) (s : St) :
  0x80 <= st1 <= 0xEF -> data_byte n -> 0x80 <= st2 <= 0xEF ->
  MidiProcessList c offH onH dH ([st1; n; st2] ++ rest) (d, s)
  = MidiProcessList c offH onH dH rest (mkDecoder st2 0xFF 0xFF, s).
Proof.
  unfold data_byte; intros H1 Hn H2.
  cbn [MidiProcessList app fold_left].
  assert (E : forall e, fst (MidiProcess c offH onH dH st2 e) = mkDecoder st2 0xFF 0xFF /\
                        snd (MidiProcess c offH onH dH st2 e) = snd e).
  { intros [e x]; unfold MidiProcess; zbool; split; reflexivity. }
  assert (Hs : snd (MidiProcess c offH onH dH n (MidiProcess c offH onH dH st1 (d, s))) = s).
  { unfold MidiProcess at 2; zbool; cbn [andb].
    unfold MidiProcess; cbn [midiStatusByte midiDataByte1 midiDataByte2]; zbool; cbn [andb].
    repeat match goal with |- context [if ?x then _ else _] => destruct x end;
      reflexivity. }
  destruct (MidiProcess c offH onH dH st2
              (MidiProcess c offH onH dH n (MidiProcess c offH onH dH st1 (d, s))))
    as [d' s'] eqn:Em.
  destruct (E (MidiProcess c offH onH dH n (MidiProcess c offH onH dH st1 (d, s))))
    as [Ef Es].
  rewrite Em in Ef, Es; cbn [fst snd] in Ef, Es.
  rewrite Ef, Es, Hs. reflexivity.
Qed.

Lemma X14_status_discards_partial_witness :
  MidiProcessList cfg_src recNoteOff recNoteOn recDuty ([0x9B; 60; 0x9B] ++ [62; 100])
    (mkDecoder 0 0 0, [])
  = MidiProcessList cfg_src recNoteOff recNoteOn recDuty [62; 100] (mkDecoder 0x9B 0xFF 0xFF, []).
Proof. apply X14_status_discards_partial; unfold data_byte; lia. Defined.
